(** * The TLS engine's I/O plug-in over a generic stream

    A shallow embedding of [mongoc-stream-tls-openssl-bio.c]: the seven
    callbacks the TLS engine's plug-in table requires ([create], [destroy],
    [read], [write], [ctrl], [gets], [puts]), written as computations over
    an explicit store, and the properties of them that the design document
    states.

    The C code works through pointers: a [BIO *] handle whose [ptr] field is
    a [mongoc_stream_tls_t *], whose [ctx] field is in turn a
    [mongoc_stream_tls_openssl_t *] that points back at the handle through
    its [bio] field.  The store below keeps one finite map per struct type,
    keyed by address, so that the aliasing between the handle and its
    context is the aliasing of the program. *)

From Stdlib Require Import ZArith Lia List.
From Stdlib.Strings Require Import Byte.
From stdpp Require Import base option gmap list.

Local Open Scope Z_scope.

(** ** Machine integers *)

(** [int] is 32 bits wide; a conversion to it keeps the low 32 bits and reads
    them as a two's complement number. *)
Definition INT_MIN : Z := - 2 ^ 31.
Definition INT_MAX : Z := 2 ^ 31 - 1.

Definition int_range (z : Z) : Prop := INT_MIN <= z <= INT_MAX.

Definition to_int (z : Z) : Z := (z + 2 ^ 31) mod 2 ^ 32 - 2 ^ 31.

(** [size_t] is 64 bits wide and unsigned; an [int] converted to it is taken
    modulo 2^64, so that -1 becomes 2^64 - 1. *)
Definition SIZE_MAX : Z := 2 ^ 64 - 1.

Definition to_size_t (z : Z) : Z := z mod 2 ^ 64.
Arguments to_size_t : simpl never.

(** ** Pointers and structs *)

(** An address is a positive number; a pointer is an address or [NULL]. *)
Abbreviation addr := positive (only parsing).
Abbreviation pointer := (option positive) (only parsing).
Abbreviation NULL := (@None positive) (only parsing).

(** The fields of the engine's [BIO] struct that the callbacks touch. *)
Record BIO : Type := mkBIO {
  init : Z;
  num : Z;
  ptr : pointer;
  flags : Z
}.

Definition set_init (v : Z) (b : BIO) : BIO := mkBIO v (num b) (ptr b) (flags b).
Definition set_num (v : Z) (b : BIO) : BIO := mkBIO (init b) v (ptr b) (flags b).
Definition set_ptr (v : pointer) (b : BIO) : BIO := mkBIO (init b) (num b) v (flags b).
Definition set_flags (v : Z) (b : BIO) : BIO := mkBIO (init b) (num b) (ptr b) v.

(** The fields of [mongoc_stream_tls_t] that the callbacks read: the stream
    underneath, the engine-specific context and the timeout of one operation
    in milliseconds. *)
Record mongoc_stream_tls_t : Type := mkTls {
  base_stream : pointer;
  ctx : pointer;
  timeout_msec : Z
}.

(** The one field of [mongoc_stream_tls_openssl_t] that the callbacks write:
    the context's own reference to its handle. *)
Record mongoc_stream_tls_openssl_t : Type := mkOpenssl {
  bio : pointer
}.

(** One segment of a scatter/gather write; [iov_len] is a [size_t]. *)
Record mongoc_iovec_t : Type := mkIovec {
  iov_base : pointer;
  iov_len : Z
}.

(** ** The store *)

(** What the stream underneath can see and change: [errno], the character
    arrays in memory (each keyed by the address of its first byte) and the
    stream's own state, of a type [T] left to the stream.  The handles and
    the contexts are out of its reach. *)
Record env (T : Type) : Type := mkEnv {
  errno : Z;
  chars : gmap positive (list byte);
  net : T
}.
Arguments mkEnv {T} _ _ _.
Arguments errno {T} _.
Arguments chars {T} _.
Arguments net {T} _.

(** A call of the stream underneath, with its arguments, as the callbacks
    issue it.  The store keeps the calls issued so far, oldest first. *)
Inductive call : Type :=
| StreamRead (stream buf : pointer) (count min_bytes timeout : Z)
| StreamWritev (stream : pointer) (iov : list mongoc_iovec_t) (iovcnt timeout : Z).

Record world (T : Type) : Type := mkWorld {
  bios : gmap positive BIO;
  streams : gmap positive mongoc_stream_tls_t;
  contexts : gmap positive mongoc_stream_tls_openssl_t;
  io : env T;
  calls : list call
}.
Arguments mkWorld {T} _ _ _ _ _.
Arguments bios {T} _.
Arguments streams {T} _.
Arguments contexts {T} _.
Arguments io {T} _.
Arguments calls {T} _.

(** ** Computations *)

(** A callback returns a value and a new store, or stops the process on a
    failed assertion ([Abort]), or reads or writes through a pointer that
    points at no object of the right type ([Fault]). *)
Inductive outcome (S A : Type) : Type :=
| Done (a : A) (s : S)
| Abort
| Fault.
Arguments Done {S A} _ _.
Arguments Abort {S A}.
Arguments Fault {S A}.

Definition M (T A : Type) : Type := world T -> outcome (world T) A.

Definition ret {T A} (a : A) : M T A := fun w => Done a w.

Definition bind {T A B} (m : M T A) (k : A -> M T B) : M T B :=
  fun w => match m w with
           | Done a w' => k a w'
           | Abort => Abort
           | Fault => Fault
           end.

Declare Scope c_scope.
Delimit Scope c_scope with C.
Notation "'do' x <- m ; k" := (bind m (fun x => k))
  (at level 10, x name, m at level 99, k at level 200) : c_scope.
Notation "m ;; k" := (bind m (fun _ => k))
  (at level 100, k at level 200, right associativity) : c_scope.

(** The value a computation returned, when it returned. *)
Definition returned {S A} (o : outcome S A) : option A :=
  match o with
  | Done a _ => Some a
  | Abort | Fault => None
  end.

(** The store a computation left, when it returned. *)
Definition returned_store {S A} (o : outcome S A) : option S :=
  match o with
  | Done _ s => Some s
  | Abort | Fault => None
  end.

Definition abort {T A} : M T A := fun _ => Abort.
Definition fault {T A} : M T A := fun _ => Fault.

Definition non_null (p : pointer) : bool :=
  match p with Some _ => true | None => false end.

(** [BSON_ASSERT (p)] on a pointer: the process is aborted when [p] is
    [NULL]. *)
Definition BSON_ASSERT {T} (p : pointer) : M T unit :=
  if non_null p then ret tt else abort.

(** [b->f] for a field [f] of a [BIO]. *)
Definition bio_get {T A} (b : pointer) (f : BIO -> A) : M T A :=
  fun w => match b with
           | Some a => match bios w !! a with
                       | Some x => Done (f x) w
                       | None => Fault
                       end
           | None => Fault
           end.

(** [b->f = v], as the setter [upd] of the field. *)
Definition bio_set {T} (b : pointer) (upd : BIO -> BIO) : M T unit :=
  fun w => match b with
           | Some a => match bios w !! a with
                       | Some x =>
                           Done tt (mkWorld (<[a := upd x]> (bios w)) (streams w)
                                            (contexts w) (io w) (calls w))
                       | None => Fault
                       end
           | None => Fault
           end.

(** [tls->f] for a field [f] of a [mongoc_stream_tls_t]. *)
Definition tls_get {T A} (tls : pointer) (f : mongoc_stream_tls_t -> A) : M T A :=
  fun w => match tls with
           | Some a => match streams w !! a with
                       | Some x => Done (f x) w
                       | None => Fault
                       end
           | None => Fault
           end.

(** [c->bio = v] for [c] read as a pointer to a
    [mongoc_stream_tls_openssl_t]. *)
Definition openssl_set_bio {T} (c : pointer) (v : pointer) : M T unit :=
  fun w => match c with
           | Some a => match contexts w !! a with
                       | Some _ =>
                           Done tt (mkWorld (bios w) (streams w)
                                            (<[a := mkOpenssl v]> (contexts w))
                                            (io w) (calls w))
                       | None => Fault
                       end
           | None => Fault
           end.

Definition get_errno {T} : M T Z := fun w => Done (errno (io w)) w.

Definition set_errno {T} (v : Z) : M T unit :=
  fun w => Done tt (mkWorld (bios w) (streams w) (contexts w)
                            (mkEnv v (chars (io w)) (net (io w))) (calls w)).

(** The store with the handle at [b] replaced. *)
Definition with_bio {T} (b : addr) (x : BIO) (w : world T) : world T :=
  mkWorld (<[b := x]> (bios w)) (streams w) (contexts w) (io w) (calls w).

(** ** The engine's flag macros *)

(** Modelled from the spec: the TLS engine's header [bio.h], which defines
    the retry flags of a handle and the macros that clear and set them, is
    not under the sources.  The handle's [flags] is the retry-state bitmask
    of the data model (none, retry-read, retry-write); the bit values are
    those of the engine's public header: a direction bit for read, write
    and a special operation, and the bit that says a retry is wanted. *)
Definition BIO_FLAGS_READ : Z := 1.
Definition BIO_FLAGS_WRITE : Z := 2.
Definition BIO_FLAGS_IO_SPECIAL : Z := 4.
Definition BIO_FLAGS_RWS : Z :=
  Z.lor (Z.lor BIO_FLAGS_READ BIO_FLAGS_WRITE) BIO_FLAGS_IO_SPECIAL.
Definition BIO_FLAGS_SHOULD_RETRY : Z := 8.

Definition BIO_clear_flags {T} (b : pointer) (m : Z) : M T unit :=
  bio_set b (fun x => set_flags (Z.land (flags x) (Z.lnot m)) x).

Definition BIO_set_flags {T} (b : pointer) (m : Z) : M T unit :=
  bio_set b (fun x => set_flags (Z.lor (flags x) m) x).

Definition BIO_clear_retry_flags {T} (b : pointer) : M T unit :=
  BIO_clear_flags b (Z.lor BIO_FLAGS_RWS BIO_FLAGS_SHOULD_RETRY).

Definition BIO_set_retry_read {T} (b : pointer) : M T unit :=
  BIO_set_flags b (Z.lor BIO_FLAGS_READ BIO_FLAGS_SHOULD_RETRY).

Definition BIO_set_retry_write {T} (b : pointer) : M T unit :=
  BIO_set_flags b (Z.lor BIO_FLAGS_WRITE BIO_FLAGS_SHOULD_RETRY).

(** Modelled from the spec: the command code of flush is a constant of the
    same header; its value is the one of the engine's public header. *)
Definition BIO_CTRL_FLUSH : Z := 11.

(** ** [strlen] *)

(** The number of bytes before the first NUL of an array; nothing when the
    array holds no NUL, where the C function reads past the array. *)
Fixpoint first_nul (s : list byte) : option nat :=
  match s with
  | [] => None
  | c :: s' => if Byte.eqb c x00 then Some O else S <$> first_nul s'
  end.

Definition strlen {T} (str : pointer) : M T Z :=
  fun w => match str with
           | Some a => match chars (io w) !! a with
                       | Some s => match first_nul s with
                                   | Some n => Done (Z.of_nat n) w
                                   | None => Fault
                                   end
                       | None => Fault
                       end
           | None => Fault
           end.

(** ** The callbacks *)

Local Open Scope c_scope.

Section Callbacks.

Context {T : Type}.

(** The stream underneath and the classification of [errno] are not part
    of this file: [mongoc_stream_read (stream, buf, count, min_bytes,
    timeout_msec)] and [mongoc_stream_writev (stream, iov, iovcnt,
    timeout_msec)] return a count and may change what is in [env];
    [MONGOC_ERRNO_IS_AGAIN] says which values of [errno] are transient. *)
Variable mongoc_stream_read :
  pointer -> pointer -> Z -> Z -> Z -> env T -> Z * env T.
Variable mongoc_stream_writev :
  pointer -> list mongoc_iovec_t -> Z -> Z -> env T -> Z * env T.
Variable MONGOC_ERRNO_IS_AGAIN : Z -> bool.

(** A call of the stream: it is entered in [calls] and its effect on the
    environment is the stream's. *)
Definition stream_read (stream buf : pointer) (count min_bytes timeout : Z)
  : M T Z :=
  fun w =>
    let '(r, e) := mongoc_stream_read stream buf count min_bytes timeout (io w) in
    Done r (mkWorld (bios w) (streams w) (contexts w) e
                    (calls w ++ [StreamRead stream buf count min_bytes timeout])).

Definition stream_writev (stream : pointer) (iov : list mongoc_iovec_t)
           (iovcnt timeout : Z) : M T Z :=
  fun w =>
    let '(r, e) := mongoc_stream_writev stream iov iovcnt timeout (io w) in
    Done r (mkWorld (bios w) (streams w) (contexts w) e
                    (calls w ++ [StreamWritev stream iov iovcnt timeout])).

Definition mongoc_stream_tls_openssl_bio_create (b : pointer) : M T Z :=
  BSON_ASSERT b ;;
  bio_set b (set_init 1) ;;
  bio_set b (set_num 0) ;;
  bio_set b (set_ptr NULL) ;;
  bio_set b (set_flags 0) ;;
  ret 1.

Definition mongoc_stream_tls_openssl_bio_destroy (b : pointer) : M T Z :=
  BSON_ASSERT b ;;
  do tls <- bio_get b ptr ;
  if negb (non_null tls) then ret (-1) else
  bio_set b (set_ptr NULL) ;;
  bio_set b (set_init 0) ;;
  bio_set b (set_flags 0) ;;
  do c <- tls_get tls ctx ;
  openssl_set_bio c NULL ;;
  ret 1.

(** The tracing macros ([ENTRY], [TRACE], [RETURN]) write to the log only
    and are left out.  The stream takes its count as a [size_t]: the [int]
    [len] is converted on the way in. *)
Definition mongoc_stream_tls_openssl_bio_read (b buf : pointer) (len : Z)
  : M T Z :=
  BSON_ASSERT b ;;
  BSON_ASSERT buf ;;
  do tls <- bio_get b ptr ;
  if negb (non_null tls) then ret (-1) else
  set_errno 0 ;;
  do stream <- tls_get tls base_stream ;
  do timeout <- tls_get tls timeout_msec ;
  do r <- stream_read stream buf (to_size_t len) 0 timeout ;
  let ret_ := to_int r in
  BIO_clear_retry_flags b ;;
  do e <- get_errno ;
  (if (ret_ <=? 0) && MONGOC_ERRNO_IS_AGAIN e
   then BIO_set_retry_read b else ret tt) ;;
  ret ret_.

(** After the stream's write the code only traces whether the write was
    short ([len > ret]) or whole; neither branch changes anything.  The
    assignment [iov.iov_len = len] converts the [int] to [size_t]. *)
Definition mongoc_stream_tls_openssl_bio_write (b buf : pointer) (len : Z)
  : M T Z :=
  BSON_ASSERT b ;;
  BSON_ASSERT buf ;;
  do tls <- bio_get b ptr ;
  if negb (non_null tls) then ret (-1) else
  let iov := mkIovec buf (to_size_t len) in
  set_errno 0 ;;
  do stream <- tls_get tls base_stream ;
  do timeout <- tls_get tls timeout_msec ;
  do r <- stream_writev stream [iov] 1 timeout ;
  let ret_ := to_int r in
  BIO_clear_retry_flags b ;;
  do e <- get_errno ;
  (if (ret_ <=? 0) && MONGOC_ERRNO_IS_AGAIN e
   then BIO_set_retry_write b else ret tt) ;;
  ret ret_.

Definition mongoc_stream_tls_openssl_bio_ctrl (b : pointer) (cmd num_ : Z)
           (ptr_ : pointer) : M T Z :=
  if cmd =? BIO_CTRL_FLUSH then ret 1 else ret 0.

Definition mongoc_stream_tls_openssl_bio_gets (b buf : pointer) (len : Z)
  : M T Z :=
  ret (-1).

Definition mongoc_stream_tls_openssl_bio_puts (b str : pointer) : M T Z :=
  do n <- strlen str ;
  mongoc_stream_tls_openssl_bio_write b str (to_int n).

End Callbacks.

(** ** Reading the retry state of a handle *)

(** The engine's tests of the flags: has the last call asked to be repeated,
    and in which direction. *)
Definition BIO_test_flags (f m : Z) : bool := negb (Z.land f m =? 0).
Definition BIO_should_read (f : Z) : bool := BIO_test_flags f BIO_FLAGS_READ.
Definition BIO_should_retry (f : Z) : bool :=
  BIO_test_flags f BIO_FLAGS_SHOULD_RETRY.

(** The flags of a handle after a read or write that reached the stream:
    the retry bits are cleared, and set again for the direction [dir] when
    the call is to be repeated. *)
Definition flags_after (dir : Z) (again : bool) (f : Z) : Z :=
  let cleared := Z.land f (Z.lnot (Z.lor BIO_FLAGS_RWS BIO_FLAGS_SHOULD_RETRY)) in
  if again then Z.lor cleared (Z.lor dir BIO_FLAGS_SHOULD_RETRY) else cleared.

(** The store [w'] is the store [w], but for the flags of at most one
    handle. *)
Definition flags_only {T} (w w' : world T) : Prop :=
  w' = w \/
  exists (b : addr) (x : BIO) (f : Z),
    bios w !! b = Some x /\
    bios w' = <[b := set_flags f x]> (bios w) /\
    streams w' = streams w /\ contexts w' = contexts w.

(** ** A scripted stream *)

(** A stream for examples: its state is a script, one entry per call still
    to come, each giving the count to return, the [errno] to leave and the
    bytes to put in the caller's buffer.  With the script used up, a call
    returns 0 and leaves everything as it is. *)
Module Scripted.

Definition script : Type := list (Z * Z * list byte).

Definition step (buf : pointer) (fill : bool) (e : env script)
  : Z * env script :=
  match net e with
  | [] => (0, e)
  | (n, err, data) :: rest =>
      let mem := match buf with
                 | Some a => if fill then <[a := data]> (chars e) else chars e
                 | None => chars e
                 end in
      (n, mkEnv err mem rest)
  end.

Definition read (stream buf : pointer) (count min_bytes timeout : Z)
  : env script -> Z * env script :=
  step buf true.

Definition writev (stream : pointer) (iov : list mongoc_iovec_t)
           (iovcnt timeout : Z) : env script -> Z * env script :=
  step NULL false.

(** [EINTR] and [EAGAIN] are transient. *)
Definition EINTR : Z := 4.
Definition EAGAIN : Z := 11.
Definition is_again (e : Z) : bool := (e =? EINTR) || (e =? EAGAIN).

(** A handle at address 1 bound to the stream context at address 2, whose
    engine context at address 3 points back at the handle; the context
    wraps the stream at address 7 with a timeout of 50 ms.  A second
    handle at address 5 is bound to nothing. *)
Definition hello : list byte := [x68; x65; x6c; x6c; x6f].
Definition abc : list byte := [x61; x62; x63].

Definition bound_bio (f : Z) : BIO := mkBIO 1 0 (Some 2%positive) f.
Definition free_bio (f : Z) : BIO := mkBIO 1 0 NULL f.
Definition tls0 : mongoc_stream_tls_t :=
  mkTls (Some 7%positive) (Some 3%positive) 50.

Definition world0 (f : Z) (s : script) : world script :=
  mkWorld (<[1%positive := bound_bio f]> (<[5%positive := free_bio f]> ∅))
          (<[2%positive := tls0]> ∅)
          (<[3%positive := mkOpenssl (Some 1%positive)]> ∅)
          (mkEnv 0 (<[4%positive := abc ++ [x00]]> ∅) s)
          [].

(** The stream's answers in three runs: a read that is to be repeated
    ([-1] with [EAGAIN]) before one that brings five bytes, a write of which
    40 bytes are taken, a write of three bytes taken whole. *)
Definition retry_then_hello : script := [(-1, EAGAIN, []); (5, 0, hello)].
Definition short_write : script := [(40, 0, [])].
Definition whole_write : script := [(3, 0, [])].

(** The environment after the first read of [retry_then_hello] into the
    buffer at address 9, and after the write of [short_write]. *)
Definition env_after_retry : env script :=
  mkEnv EAGAIN (<[9%positive := []]> (<[4%positive := abc ++ [x00]]> ∅))
        [(5, 0, hello)].
Definition env_after_short : env script :=
  mkEnv 0 (<[4%positive := abc ++ [x00]]> ∅) [].

(** The store after that first read, started with the retry-write flag
    set. *)
Definition world_after_retry : world script :=
  mkWorld (<[1%positive := bound_bio 9]> (<[5%positive := free_bio 2]> ∅))
          (<[2%positive := tls0]> ∅)
          (<[3%positive := mkOpenssl (Some 1%positive)]> ∅)
          env_after_retry
          [StreamRead (Some 7%positive) (Some 9%positive) 10 0 50].

(** The store after the write of [short_write] from the buffer at address
    4, started with the retry-read flag set. *)
Definition world_after_short : world script :=
  mkWorld (<[1%positive := bound_bio 0]> (<[5%positive := free_bio 9]> ∅))
          (<[2%positive := tls0]> ∅)
          (<[3%positive := mkOpenssl (Some 1%positive)]> ∅)
          env_after_short
          [StreamWritev (Some 7%positive) [mkIovec (Some 4%positive) 100] 1 50].

(** A stream that claims 2^32 bytes and leaves a transient [errno], and the
    environment after that answer (a read into the buffer at address 4, or
    a write). *)
Definition huge_count : script := [(2 ^ 32, EAGAIN, abc ++ [x00])].
Definition env_after_huge : env script :=
  mkEnv EAGAIN (<[4%positive := abc ++ [x00]]> ∅) [].

(** The store of [world0] with the stream context at address 2 left
    without an engine context. *)
Definition world_no_ctx (f : Z) : world script :=
  mkWorld (<[1%positive := bound_bio f]> ∅)
          (<[2%positive := mkTls (Some 7%positive) NULL 50]> ∅)
          ∅
          (mkEnv 0 ∅ [])
          [].

End Scripted.

(** * Properties *)

(** ** Integers and flags *)

Lemma to_int_id (z : Z) : int_range z -> to_int z = z.
Proof.
  unfold int_range, INT_MIN, INT_MAX, to_int. intros Hz.
  rewrite Z.mod_small by lia. lia.
Qed.


Lemma to_size_t_neg (z : Z) : INT_MIN <= z < 0 -> to_size_t z = z + 2 ^ 64.
Proof.
  unfold INT_MIN, to_size_t. intros Hz.
  rewrite <- (Z.mod_add z 1 (2 ^ 64)) by lia.
  apply Z.mod_small. lia.
Qed.

Lemma to_int_range (z : Z) : int_range (to_int z).
Proof.
  unfold int_range, INT_MIN, INT_MAX, to_int.
  pose proof (Z.mod_pos_bound (z + 2 ^ 31) (2 ^ 32) ltac:(lia)). lia.
Qed.

(** A bit that the clearing mask covers is off afterwards. *)
Lemma cleared_bit (f m k : Z) :
  Z.land (Z.lnot m) k = 0 -> Z.land (Z.land f (Z.lnot m)) k = 0.
Proof.
  intros Hk. rewrite <- Z.land_assoc, Hk. apply Z.land_0_r.
Qed.

Lemma test_flags_after (dir : Z) (again : bool) (f k : Z) :
  Z.land (Z.lnot (Z.lor BIO_FLAGS_RWS BIO_FLAGS_SHOULD_RETRY)) k = 0 ->
  BIO_test_flags (flags_after dir again f) k =
  again && BIO_test_flags (Z.lor dir BIO_FLAGS_SHOULD_RETRY) k.
Proof.
  intros Hk. unfold BIO_test_flags, flags_after. destruct again; simpl.
  - rewrite Z.land_lor_distr_l, cleared_bit by exact Hk. reflexivity.
  - rewrite cleared_bit by exact Hk. reflexivity.
Qed.


(** ** [strlen] on a terminated string *)

Lemma first_nul_terminated (s rest : list byte) :
  x00 ∉ s -> first_nul (s ++ x00 :: rest) = Some (length s).
Proof.
  induction s as [| c s IH]; intros Hs; simpl.
  - reflexivity.
  - apply not_elem_of_cons in Hs as [Hc Hs].
    destruct (Byte.eqb c x00) eqn:E.
    + apply Byte.byte_dec_bl in E. congruence.
    + rewrite IH by exact Hs. reflexivity.
Qed.

(** ** Running a callback *)

(** On a store whose lookups are known: unfold the primitives, then
    alternate computation with the lookups at hand. *)
Ltac unfold_callbacks :=
  unfold mongoc_stream_tls_openssl_bio_create,
    mongoc_stream_tls_openssl_bio_destroy,
    mongoc_stream_tls_openssl_bio_read,
    mongoc_stream_tls_openssl_bio_write,
    bind, BSON_ASSERT, bio_get, tls_get, openssl_set_bio,
    stream_read, stream_writev, set_errno, get_errno, ret,
    BIO_clear_retry_flags, BIO_clear_flags, BIO_set_retry_read,
    BIO_set_retry_write, BIO_set_flags, bio_set, flags_after, with_bio.

Ltac run :=
  unfold_callbacks;
  repeat (progress
            (cbn;
             rewrite ?lookup_insert_eq, ?insert_insert_eq;
             repeat match goal with
                    | H : _ !! _ = Some _ |- _ => rewrite H
                    | H : ptr _ = _ |- _ => rewrite H
                    | H : ctx _ = _ |- _ => rewrite H
                    | H : _ = (_, _) |- _ => rewrite H
                    end)).

(** ** Life cycle of a handle: [create], [destroy], [ctrl] *)

Section Lifecycle.

Context {T : Type}.

(** C6: for every non-null handle, whatever it held before, [create]
    returns success (1) and leaves the handle with [init] = 1 (initialized),
    [ptr] = [NULL] (bound to nothing) and [flags] = 0 (no flag); nothing
    else in the store changes. *)
Theorem create_baseline (w : world T) (b : addr) (old : BIO) :
  bios w !! b = Some old ->
  exists h : BIO,
    mongoc_stream_tls_openssl_bio_create (Some b) w = Done 1 (with_bio b h w) /\
    init h = 1 /\ ptr h = NULL /\ flags h = 0.
Proof.
  intros Hb. exists (mkBIO 1 0 NULL 0). split; [| done].
  run. reflexivity.
Qed.

(** C3: for every handle bound to a context, [destroy] returns success (1)
    and afterwards the handle has [ptr] = [NULL], [init] = 0 and
    [flags] = 0, and the context's own reference to the handle, its [bio]
    field, is [NULL] as well: both halves of the binding are cleared by the
    one call. *)
Theorem destroy_bound (w : world T) (b t c : addr) (x : BIO)
        (tls : mongoc_stream_tls_t) (o : mongoc_stream_tls_openssl_t) :
  bios w !! b = Some x ->
  ptr x = Some t ->
  streams w !! t = Some tls ->
  ctx tls = Some c ->
  contexts w !! c = Some o ->
  exists (w' : world T) (h : BIO) (o' : mongoc_stream_tls_openssl_t),
    mongoc_stream_tls_openssl_bio_destroy (Some b) w = Done 1 w' /\
    bios w' !! b = Some h /\
    ptr h = NULL /\ init h = 0 /\ flags h = 0 /\
    contexts w' !! c = Some o' /\ bio o' = NULL.
Proof.
  intros Hb Hp Ht Hc Ho.
  eexists _, (mkBIO 0 (num x) NULL 0), (mkOpenssl NULL).
  split; [run; reflexivity |].
  cbn. rewrite !lookup_insert_eq. done.
Qed.

(** C4: for every handle bound to nothing, [destroy] returns failure (-1)
    and the store after the call is the store before it: no field of the
    handle and no context has changed. *)
Theorem destroy_unbound (w : world T) (b : addr) (x : BIO) :
  bios w !! b = Some x ->
  ptr x = NULL ->
  mongoc_stream_tls_openssl_bio_destroy (Some b) w = Done (-1) w.
Proof. intros Hb Hp. run. reflexivity. Qed.

(** C7: whatever the handle, the arguments and the store, [ctrl] returns
    success (1) for the flush command and 0 for every other command code,
    and the store is unchanged in both cases. *)
Theorem ctrl_flush_only (w : world T) (b ptr_ : pointer) (cmd num_ : Z) :
  mongoc_stream_tls_openssl_bio_ctrl b cmd num_ ptr_ w =
  Done (if decide (cmd = BIO_CTRL_FLUSH) then 1 else 0) w.
Proof.
  unfold mongoc_stream_tls_openssl_bio_ctrl.
  case_decide as Hcmd.
  - subst cmd. reflexivity.
  - apply Z.eqb_neq in Hcmd. rewrite Hcmd. reflexivity.
Qed.

(** C10: the value [ctrl] returns is a function of the command code alone:
    two calls with the same [cmd] return the same value, whatever the
    handles (bound or not, initialized or not, even [NULL]), the numeric
    arguments, the pointer arguments and the stores. *)
Theorem ctrl_value_of_cmd_alone (cmd : Z) (w1 w2 : world T)
        (b1 b2 p1 p2 : pointer) (n1 n2 : Z) :
  exists v : Z,
    returned (mongoc_stream_tls_openssl_bio_ctrl b1 cmd n1 p1 w1) = Some v /\
    returned (mongoc_stream_tls_openssl_bio_ctrl b2 cmd n2 p2 w2) = Some v.
Proof.
  unfold mongoc_stream_tls_openssl_bio_ctrl.
  destruct (cmd =? BIO_CTRL_FLUSH); eexists; split; reflexivity.
Qed.

End Lifecycle.

(** ** Moving bytes: [read], [write], [puts] *)

Section Transfer.

Context {T : Type}.
Variable mongoc_stream_read :
  pointer -> pointer -> Z -> Z -> Z -> env T -> Z * env T.
Variable mongoc_stream_writev :
  pointer -> list mongoc_iovec_t -> Z -> Z -> env T -> Z * env T.
Variable MONGOC_ERRNO_IS_AGAIN : Z -> bool.

Local Abbreviation bio_read :=
  (mongoc_stream_tls_openssl_bio_read mongoc_stream_read MONGOC_ERRNO_IS_AGAIN).
Local Abbreviation bio_write :=
  (mongoc_stream_tls_openssl_bio_write mongoc_stream_writev MONGOC_ERRNO_IS_AGAIN).
Local Abbreviation bio_puts :=
  (mongoc_stream_tls_openssl_bio_puts mongoc_stream_writev MONGOC_ERRNO_IS_AGAIN).

(** What a read that reaches the stream does, whatever count comes back:
    the count is converted to [int] on the way. *)
Lemma read_run (w : world T) (b t : addr) (buf : pointer) (x : BIO)
      (tls : mongoc_stream_tls_t) (len r : Z) (e' : env T) :
  bios w !! b = Some x ->
  ptr x = Some t ->
  streams w !! t = Some tls ->
  non_null buf = true ->
  mongoc_stream_read (base_stream tls) buf (to_size_t len) 0
                     (timeout_msec tls)
                     (mkEnv 0 (chars (io w)) (net (io w))) = (r, e') ->
  bio_read (Some b) buf len w =
  Done (to_int r)
       (mkWorld
          (<[b := set_flags
                    (flags_after BIO_FLAGS_READ
                       ((to_int r <=? 0) && MONGOC_ERRNO_IS_AGAIN (errno e'))
                       (flags x)) x]> (bios w))
          (streams w) (contexts w) e'
          (calls w ++ [StreamRead (base_stream tls) buf (to_size_t len) 0
                                  (timeout_msec tls)])).
Proof.
  intros Hb Hp Ht Hbuf Hr. run. rewrite Hbuf. run.
  destruct ((to_int r <=? 0) && MONGOC_ERRNO_IS_AGAIN (errno e')); run;
    reflexivity.
Qed.

(** The same for a write. *)
Lemma write_run (w : world T) (b t : addr) (buf : pointer) (x : BIO)
      (tls : mongoc_stream_tls_t) (len r : Z) (e' : env T) :
  bios w !! b = Some x ->
  ptr x = Some t ->
  streams w !! t = Some tls ->
  non_null buf = true ->
  mongoc_stream_writev (base_stream tls) [mkIovec buf (to_size_t len)] 1
                       (timeout_msec tls)
                       (mkEnv 0 (chars (io w)) (net (io w))) = (r, e') ->
  bio_write (Some b) buf len w =
  Done (to_int r)
       (mkWorld
          (<[b := set_flags
                    (flags_after BIO_FLAGS_WRITE
                       ((to_int r <=? 0) && MONGOC_ERRNO_IS_AGAIN (errno e'))
                       (flags x)) x]> (bios w))
          (streams w) (contexts w) e'
          (calls w ++ [StreamWritev (base_stream tls)
                                    [mkIovec buf (to_size_t len)]
                                    1 (timeout_msec tls)])).
Proof.
  intros Hb Hp Ht Hbuf Hr. run. rewrite Hbuf. run.
  destruct ((to_int r <=? 0) && MONGOC_ERRNO_IS_AGAIN (errno e')); run;
    reflexivity.
Qed.



(** C5: for every handle bound to nothing, [read] and [write] both return
    -1 and the store after the call is the store before it: the stream has
    not been called and the handle's flags, retry flags included, are as
    they were. *)
Theorem read_write_unbound (w : world T) (b buf : addr) (x : BIO) (len : Z) :
  bios w !! b = Some x ->
  ptr x = NULL ->
  bio_read (Some b) (Some buf) len w = Done (-1) w /\
  bio_write (Some b) (Some buf) len w = Done (-1) w.
Proof. intros Hb Hp. split; run; reflexivity. Qed.

(** A read or a write that returns has either left the store alone or
    replaced the flags of the one handle it was called on. *)
Lemma read_flags_only (w w' : world T) (b buf : pointer) (len r : Z) :
  bio_read b buf len w = Done r w' -> flags_only w w'.
Proof.
  intros H.
  destruct b as [b |]; [| discriminate H].
  destruct buf as [buf |]; [| discriminate H].
  destruct (bios w !! b) as [x |] eqn:Hb;
    [| revert H; run; rewrite Hb; discriminate].
  destruct (ptr x) as [t |] eqn:Hp;
    [| left; revert H; run; congruence].
  destruct (streams w !! t) as [tls |] eqn:Ht;
    [| revert H; run; rewrite Ht; discriminate].
  destruct (mongoc_stream_read (base_stream tls) (Some buf) (to_size_t len) 0
              (timeout_msec tls) (mkEnv 0 (chars (io w)) (net (io w))))
    as [n e'] eqn:Hr.
  rewrite (read_run w b t (Some buf) x tls len n e') in H by done.
  injection H as _ <-. right. eexists b, x, _. done.
Qed.

Lemma write_flags_only (w w' : world T) (b buf : pointer) (len r : Z) :
  bio_write b buf len w = Done r w' -> flags_only w w'.
Proof.
  intros H.
  destruct b as [b |]; [| discriminate H].
  destruct buf as [buf |]; [| discriminate H].
  destruct (bios w !! b) as [x |] eqn:Hb;
    [| revert H; run; rewrite Hb; discriminate].
  destruct (ptr x) as [t |] eqn:Hp;
    [| left; revert H; run; congruence].
  destruct (streams w !! t) as [tls |] eqn:Ht;
    [| revert H; run; rewrite Ht; discriminate].
  destruct (mongoc_stream_writev (base_stream tls)
              [mkIovec (Some buf) (to_size_t len)] 1
              (timeout_msec tls) (mkEnv 0 (chars (io w)) (net (io w))))
    as [n e'] eqn:Hr.
  rewrite (write_run w b t (Some buf) x tls len n e') in H by done.
  injection H as _ <-. right. eexists b, x, _. done.
Qed.

(** C9: a call of [read] or [write], on a bound handle or not, leaves the
    [ptr] and [init] fields of every handle as they were before the call;
    of a handle's fields only [flags] can differ afterwards. *)
Theorem read_write_frame (w w' : world T) (b buf : pointer) (len r : Z) :
  bio_read b buf len w = Done r w' \/ bio_write b buf len w = Done r w' ->
  forall (a : addr) (h : BIO),
    bios w !! a = Some h ->
    exists h' : BIO,
      bios w' !! a = Some h' /\
      ptr h' = ptr h /\ init h' = init h /\ num h' = num h.
Proof.
  intros H a h Ha.
  assert (Hfo : flags_only w w').
  { destruct H as [H | H];
      [apply read_flags_only in H | apply write_flags_only in H]; exact H. }
  destruct Hfo as [-> | (b0 & x & f & Hb & Hbios & _ & _)].
  - exists h. done.
  - rewrite Hbios. destruct (decide (a = b0)) as [-> | Hne].
    + rewrite lookup_insert_eq. exists (set_flags f x).
      assert (x = h) as -> by congruence. done.
    + rewrite lookup_insert_ne by done. exists h. done.
Qed.

(** C8: for every handle and every string stored with its terminating
    NUL, [puts] of the string is [write] of the string with its length, the
    terminator not counted: the same value returned, the same store
    afterwards (flags of the handle included) and the same call of the
    stream.  The length is an [int], as [write] takes it. *)
Theorem puts_is_write (w : world T) (b : pointer) (str : addr)
        (s rest : list byte) :
  chars (io w) !! str = Some (s ++ x00 :: rest) ->
  x00 ∉ s ->
  Z.of_nat (length s) <= INT_MAX ->
  bio_puts b (Some str) w = bio_write b (Some str) (Z.of_nat (length s)) w.
Proof.
  intros Hstr Hs Hlen.
  unfold mongoc_stream_tls_openssl_bio_puts, bind, strlen.
  rewrite Hstr, (first_nul_terminated s rest Hs).
  rewrite to_int_id; [reflexivity |].
  unfold int_range, INT_MIN. lia.
Qed.

End Transfer.

(** * The theorems at work on the scripted stream *)

Lemma create_baseline_witness :
  exists h : BIO,
    mongoc_stream_tls_openssl_bio_create
      (Some 1%positive) (Scripted.world0 9 []) =
    Done 1 (with_bio 1%positive h (Scripted.world0 9 [])) /\
    init h = 1 /\ ptr h = NULL /\ flags h = 0.
Proof.
  apply (create_baseline (Scripted.world0 9 []) 1%positive
                         (Scripted.bound_bio 9)).
  reflexivity.
Defined.

Lemma destroy_bound_witness :
  exists (w' : world Scripted.script) (h : BIO)
         (o' : mongoc_stream_tls_openssl_t),
    mongoc_stream_tls_openssl_bio_destroy
      (Some 1%positive) (Scripted.world0 9 []) = Done 1 w' /\
    bios w' !! 1%positive = Some h /\
    ptr h = NULL /\ init h = 0 /\ flags h = 0 /\
    contexts w' !! 3%positive = Some o' /\ bio o' = NULL.
Proof.
  apply (destroy_bound (Scripted.world0 9 []) 1%positive 2%positive 3%positive
                       (Scripted.bound_bio 9) Scripted.tls0
                       (mkOpenssl (Some 1%positive)));
    reflexivity.
Defined.

Lemma destroy_unbound_witness :
  mongoc_stream_tls_openssl_bio_destroy
    (Some 5%positive) (Scripted.world0 9 []) =
  Done (-1) (Scripted.world0 9 []).
Proof.
  apply (destroy_unbound (Scripted.world0 9 []) 5%positive
                         (Scripted.free_bio 9));
    reflexivity.
Defined.



Lemma read_write_unbound_witness :
  mongoc_stream_tls_openssl_bio_read Scripted.read Scripted.is_again
    (Some 5%positive) (Some 9%positive) 10
    (Scripted.world0 9 Scripted.retry_then_hello) =
  Done (-1) (Scripted.world0 9 Scripted.retry_then_hello) /\
  mongoc_stream_tls_openssl_bio_write Scripted.writev Scripted.is_again
    (Some 5%positive) (Some 9%positive) 10
    (Scripted.world0 9 Scripted.retry_then_hello) =
  Done (-1) (Scripted.world0 9 Scripted.retry_then_hello).
Proof.
  apply (read_write_unbound Scripted.read Scripted.writev Scripted.is_again
                            (Scripted.world0 9 Scripted.retry_then_hello)
                            5%positive 9%positive (Scripted.free_bio 9) 10);
    reflexivity.
Defined.

Lemma read_write_frame_witness :
  exists h' : BIO,
    bios Scripted.world_after_retry !! 1%positive = Some h' /\
    ptr h' = Some 2%positive /\ init h' = 1 /\ num h' = 0.
Proof.
  apply (read_write_frame Scripted.read Scripted.writev Scripted.is_again
                          (Scripted.world0 2 Scripted.retry_then_hello)
                          Scripted.world_after_retry
                          (Some 1%positive) (Some 9%positive) 10 (-1))
    with (a := 1%positive) (h := Scripted.bound_bio 2).
  - left. vm_compute. reflexivity.
  - reflexivity.
Defined.

Lemma puts_is_write_witness :
  mongoc_stream_tls_openssl_bio_puts Scripted.writev Scripted.is_again
    (Some 1%positive) (Some 4%positive)
    (Scripted.world0 0 Scripted.whole_write) =
  mongoc_stream_tls_openssl_bio_write Scripted.writev Scripted.is_again
    (Some 1%positive) (Some 4%positive) 3
    (Scripted.world0 0 Scripted.whole_write).
Proof.
  apply (puts_is_write Scripted.writev Scripted.is_again
                       (Scripted.world0 0 Scripted.whole_write)
                       (Some 1%positive) 4%positive Scripted.abc []).
  - reflexivity.
  - unfold Scripted.abc. intros H.
    repeat (apply elem_of_cons in H as [H | H]; [discriminate H |]).
    apply elem_of_nil in H. exact H.
  - vm_compute. discriminate.
Defined.

(** ** Two reads in a row *)

(** The handle bound to a context with a timeout of 50 ms, the stream
    answering -1 with a transient [errno] and then five bytes: the first
    read returns -1 and asks for a repeat; the second returns 5, has put
    the bytes in the buffer and leaves no retry flag. *)
Example read_again_then_hello :
  exists w1 w2 : world Scripted.script,
    mongoc_stream_tls_openssl_bio_read Scripted.read Scripted.is_again
      (Some 1%positive) (Some 9%positive) 10
      (Scripted.world0 0 Scripted.retry_then_hello) = Done (-1) w1 /\
    (BIO_should_read ∘ flags <$> bios w1 !! 1%positive) = Some true /\
    mongoc_stream_tls_openssl_bio_read Scripted.read Scripted.is_again
      (Some 1%positive) (Some 9%positive) 10 w1 = Done 5 w2 /\
    chars (io w2) !! 9%positive = Some Scripted.hello /\
    (flags <$> bios w2 !! 1%positive) = Some 0.
Proof.
  eexists _, _. split; [vm_compute; reflexivity |].
  split; [vm_compute; reflexivity |].
  split; [vm_compute; reflexivity |].
  split; vm_compute; reflexivity.
Qed.

(** [gets] is not supported: it returns -1 and changes nothing. *)
Example gets_unsupported :
  mongoc_stream_tls_openssl_bio_gets (Some 1%positive) (Some 9%positive) 10
    (Scripted.world0 0 []) = Done (-1) (Scripted.world0 0 []).
Proof. reflexivity. Qed.

(** * Beyond one call: sequences, frames and edges *)

Section Sequences.

Context {T : Type}.
Variable mongoc_stream_read :
  pointer -> pointer -> Z -> Z -> Z -> env T -> Z * env T.
Variable mongoc_stream_writev :
  pointer -> list mongoc_iovec_t -> Z -> Z -> env T -> Z * env T.
Variable MONGOC_ERRNO_IS_AGAIN : Z -> bool.

Local Abbreviation bio_read :=
  (mongoc_stream_tls_openssl_bio_read mongoc_stream_read MONGOC_ERRNO_IS_AGAIN).
Local Abbreviation bio_write :=
  (mongoc_stream_tls_openssl_bio_write mongoc_stream_writev MONGOC_ERRNO_IS_AGAIN).

(** The store a successful [destroy] leaves. *)
Lemma destroy_run (w : world T) (b t c : addr) (x : BIO)
      (tls : mongoc_stream_tls_t) (o : mongoc_stream_tls_openssl_t) :
  bios w !! b = Some x ->
  ptr x = Some t ->
  streams w !! t = Some tls ->
  ctx tls = Some c ->
  contexts w !! c = Some o ->
  mongoc_stream_tls_openssl_bio_destroy (Some b) w =
  Done 1 (mkWorld (<[b := mkBIO 0 (num x) NULL 0]> (bios w)) (streams w)
                  (<[c := mkOpenssl NULL]> (contexts w)) (io w) (calls w)).
Proof. intros Hb Hp Ht Hc Ho. run. reflexivity. Qed.

(** On a store where the handle at [b] has [ptr] = [NULL], [destroy],
    [read] and [write] all return -1 and leave the store alone. *)
Lemma inert (w : world T) (b buf : addr) (x : BIO) (len : Z) :
  bios w !! b = Some x ->
  ptr x = NULL ->
  mongoc_stream_tls_openssl_bio_destroy (Some b) w = Done (-1) w /\
  bio_read (Some b) (Some buf) len w = Done (-1) w /\
  bio_write (Some b) (Some buf) len w = Done (-1) w.
Proof. intros Hb Hp. repeat split; run; reflexivity. Qed.

(** X1: a successful [destroy] changes the handle it is called on and the
    engine context of that handle's stream, and nothing else: every other
    handle and every other context is as before, and so are the stream
    contexts, the environment ([errno] included) and the calls issued to
    the stream; the handle's [num] is kept. *)
Theorem destroy_frame (w : world T) (b t c : addr) (x : BIO)
        (tls : mongoc_stream_tls_t) (o : mongoc_stream_tls_openssl_t) :
  bios w !! b = Some x ->
  ptr x = Some t ->
  streams w !! t = Some tls ->
  ctx tls = Some c ->
  contexts w !! c = Some o ->
  exists w' : world T,
    mongoc_stream_tls_openssl_bio_destroy (Some b) w = Done 1 w' /\
    (forall a : addr, a <> b -> bios w' !! a = bios w !! a) /\
    (forall a : addr, a <> c -> contexts w' !! a = contexts w !! a) /\
    (num <$> bios w' !! b) = Some (num x) /\
    streams w' = streams w /\ io w' = io w /\ calls w' = calls w.
Proof.
  intros Hb Hp Ht Hc Ho. eexists. split.
  - apply (destroy_run w b t c x tls o); assumption.
  - cbn. repeat split.
    + intros a Ha. apply lookup_insert_ne. congruence.
    + intros a Ha. apply lookup_insert_ne. congruence.
    + rewrite lookup_insert_eq. reflexivity.
Qed.

(** X2: after a successful [destroy] the handle is inert: a second
    [destroy] fails with -1, and [read] and [write] return -1 without
    reaching the stream; none of the three changes the store. *)
Theorem destroy_then_inert (w : world T) (b t c buf : addr) (x : BIO)
        (tls : mongoc_stream_tls_t) (o : mongoc_stream_tls_openssl_t)
        (len : Z) :
  bios w !! b = Some x ->
  ptr x = Some t ->
  streams w !! t = Some tls ->
  ctx tls = Some c ->
  contexts w !! c = Some o ->
  exists w' : world T,
    mongoc_stream_tls_openssl_bio_destroy (Some b) w = Done 1 w' /\
    mongoc_stream_tls_openssl_bio_destroy (Some b) w' = Done (-1) w' /\
    bio_read (Some b) (Some buf) len w' = Done (-1) w' /\
    bio_write (Some b) (Some buf) len w' = Done (-1) w'.
Proof.
  intros Hb Hp Ht Hc Ho. eexists. split.
  - apply (destroy_run w b t c x tls o); assumption.
  - apply (inert _ b buf (mkBIO 0 (num x) NULL 0) len).
    + cbn. apply lookup_insert_eq.
    + reflexivity.
Qed.

(** X3: a handle that [create] has just set up is inert until something
    binds it: [destroy] fails with -1, [read] and [write] return -1
    without reaching the stream, and none of them changes the store.
    [create] itself leaves every context as it was, also a context that
    still refers to the handle. *)
Theorem create_then_inert (w : world T) (b buf : addr) (old : BIO) (len : Z) :
  bios w !! b = Some old ->
  exists w' : world T,
    mongoc_stream_tls_openssl_bio_create (Some b) w = Done 1 w' /\
    contexts w' = contexts w /\
    mongoc_stream_tls_openssl_bio_destroy (Some b) w' = Done (-1) w' /\
    bio_read (Some b) (Some buf) len w' = Done (-1) w' /\
    bio_write (Some b) (Some buf) len w' = Done (-1) w'.
Proof.
  intros Hb. exists (with_bio b (mkBIO 1 0 NULL 0) w). split.
  - run. reflexivity.
  - split; [reflexivity |].
    apply (inert _ b buf (mkBIO 1 0 NULL 0) len).
    + cbn. apply lookup_insert_eq.
    + reflexivity.
Qed.


(** X5: [destroy] follows [tls->ctx] without a test: on a handle bound to
    a stream context whose engine context is [NULL], or is no live
    object, it does not return. *)
Theorem destroy_needs_context (w : world T) (b t : addr) (x : BIO)
        (tls : mongoc_stream_tls_t) :
  bios w !! b = Some x ->
  ptr x = Some t ->
  streams w !! t = Some tls ->
  ctx tls = NULL \/ (exists c : addr, ctx tls = Some c /\ contexts w !! c = None) ->
  mongoc_stream_tls_openssl_bio_destroy (Some b) w = Fault.
Proof.
  intros Hb Hp Ht [Hc | (c & Hc & Ho)]; run; [reflexivity |].
  rewrite Ho. reflexivity.
Qed.

(** Every way a [read] can return: at the test of [ptr], with -1 on the
    store as it was, or after the one call of the stream. *)
Lemma read_inv (w w' : world T) (b buf : pointer) (len r : Z) :
  bio_read b buf len w = Done r w' ->
  (r = -1 /\ w' = w) \/
  exists (b0 t : addr) (x : BIO) (tls : mongoc_stream_tls_t) (n : Z)
         (e' : env T),
    b = Some b0 /\ bios w !! b0 = Some x /\
    mongoc_stream_read (base_stream tls) buf (to_size_t len) 0
                       (timeout_msec tls)
                       (mkEnv 0 (chars (io w)) (net (io w))) = (n, e') /\
    r = to_int n /\
    w' = mkWorld
           (<[b0 := set_flags
                      (flags_after BIO_FLAGS_READ
                         ((to_int n <=? 0) && MONGOC_ERRNO_IS_AGAIN (errno e'))
                         (flags x)) x]> (bios w))
           (streams w) (contexts w) e'
           (calls w ++ [StreamRead (base_stream tls) buf (to_size_t len) 0
                                   (timeout_msec tls)]).
Proof.
  intros H.
  destruct b as [b |]; [| discriminate H].
  destruct buf as [buf |]; [| discriminate H].
  destruct (bios w !! b) as [x |] eqn:Hb;
    [| revert H; run; rewrite Hb; discriminate].
  destruct (ptr x) as [t |] eqn:Hp;
    [| left; revert H; run; intros [= <- <-]; done].
  destruct (streams w !! t) as [tls |] eqn:Ht;
    [| revert H; run; rewrite Ht; discriminate].
  destruct (mongoc_stream_read (base_stream tls) (Some buf) (to_size_t len) 0
              (timeout_msec tls) (mkEnv 0 (chars (io w)) (net (io w))))
    as [n e'] eqn:Hr.
  rewrite (read_run _ _ w b t (Some buf) x tls len n e') in H by done.
  injection H as <- <-. right. eexists b, t, x, tls, n, e'. done.
Qed.

Lemma write_inv (w w' : world T) (b buf : pointer) (len r : Z) :
  bio_write b buf len w = Done r w' ->
  (r = -1 /\ w' = w) \/
  exists (b0 t : addr) (x : BIO) (tls : mongoc_stream_tls_t) (n : Z)
         (e' : env T),
    b = Some b0 /\ bios w !! b0 = Some x /\
    mongoc_stream_writev (base_stream tls) [mkIovec buf (to_size_t len)] 1
                         (timeout_msec tls)
                         (mkEnv 0 (chars (io w)) (net (io w))) = (n, e') /\
    r = to_int n /\
    w' = mkWorld
           (<[b0 := set_flags
                      (flags_after BIO_FLAGS_WRITE
                         ((to_int n <=? 0) && MONGOC_ERRNO_IS_AGAIN (errno e'))
                         (flags x)) x]> (bios w))
           (streams w) (contexts w) e'
           (calls w ++ [StreamWritev (base_stream tls)
                                     [mkIovec buf (to_size_t len)] 1
                                     (timeout_msec tls)]).
Proof.
  intros H.
  destruct b as [b |]; [| discriminate H].
  destruct buf as [buf |]; [| discriminate H].
  destruct (bios w !! b) as [x |] eqn:Hb;
    [| revert H; run; rewrite Hb; discriminate].
  destruct (ptr x) as [t |] eqn:Hp;
    [| left; revert H; run; intros [= <- <-]; done].
  destruct (streams w !! t) as [tls |] eqn:Ht;
    [| revert H; run; rewrite Ht; discriminate].
  destruct (mongoc_stream_writev (base_stream tls)
              [mkIovec (Some buf) (to_size_t len)] 1
              (timeout_msec tls) (mkEnv 0 (chars (io w)) (net (io w))))
    as [n e'] eqn:Hr.
  rewrite (write_run _ _ w b t (Some buf) x tls len n e') in H by done.
  injection H as <- <-. right. eexists b, t, x, tls, n, e'. done.
Qed.

(** X6: whatever the stream answers, the value [read] or [write] returns
    is an [int]: it lies between [INT_MIN] and [INT_MAX]. *)
Theorem transfer_returns_int (w w' : world T) (b buf : pointer) (len r : Z) :
  bio_read b buf len w = Done r w' \/ bio_write b buf len w = Done r w' ->
  int_range r.
Proof.
  intros [H | H];
    [apply read_inv in H | apply write_inv in H];
    destruct H as [[-> _] | (b0 & t & x & tls & n & e' & _ & _ & _ & -> & _)];
    try apply to_int_range; unfold int_range, INT_MIN, INT_MAX; lia.
Qed.

(** X7: the count of the stream is converted to [int] before anything is
    decided on it.  On a bound handle [read] and [write] return the count
    reduced to 32 bits, two's complement, and ask for a retry exactly when
    that converted value is <= 0 and [errno] is transient: a count that is
    a multiple of 2^32 comes back as 0. *)
Theorem transfer_count_as_int (w : world T) (b t buf : addr) (x : BIO)
        (tls : mongoc_stream_tls_t) (len r1 r2 : Z) (e1 e2 : env T) :
  bios w !! b = Some x ->
  ptr x = Some t ->
  streams w !! t = Some tls ->
  mongoc_stream_read (base_stream tls) (Some buf) (to_size_t len) 0
                     (timeout_msec tls)
                     (mkEnv 0 (chars (io w)) (net (io w))) = (r1, e1) ->
  mongoc_stream_writev (base_stream tls)
                       [mkIovec (Some buf) (to_size_t len)] 1
                       (timeout_msec tls)
                       (mkEnv 0 (chars (io w)) (net (io w))) = (r2, e2) ->
  exists w1 w2 : world T,
    bio_read (Some b) (Some buf) len w = Done (to_int r1) w1 /\
    (BIO_should_retry ∘ flags <$> bios w1 !! b) =
    Some ((to_int r1 <=? 0) && MONGOC_ERRNO_IS_AGAIN (errno e1)) /\
    bio_write (Some b) (Some buf) len w = Done (to_int r2) w2 /\
    (BIO_should_retry ∘ flags <$> bios w2 !! b) =
    Some ((to_int r2 <=? 0) && MONGOC_ERRNO_IS_AGAIN (errno e2)).
Proof.
  intros Hb Hp Ht H1 H2. eexists _, _.
  rewrite (read_run _ _ w b t (Some buf) x tls len r1 e1) by done.
  rewrite (write_run _ _ w b t (Some buf) x tls len r2 e2) by done.
  repeat split; cbn; rewrite lookup_insert_eq; cbn; f_equal;
    unfold BIO_should_retry; rewrite test_flags_after by reflexivity;
    cbn; apply andb_true_r.
Qed.

(** X8: what [errno] held before the call does not matter to a bound
    handle: [read] and [write] set it to 0 before they call the stream, so
    the call started from any [errno] has the outcome of the call started
    from the store as it is. *)
Theorem stale_errno_ignored (w : world T) (b t buf : addr) (x : BIO)
        (len e0 : Z) :
  bios w !! b = Some x ->
  ptr x = Some t ->
  (set_errno e0 ;; bio_read (Some b) (Some buf) len) w =
  bio_read (Some b) (Some buf) len w /\
  (set_errno e0 ;; bio_write (Some b) (Some buf) len) w =
  bio_write (Some b) (Some buf) len w.
Proof.
  intros Hb Hp. split; run; reflexivity.
Qed.

(** X9: a [read] that returns has called the stream at most once, by its
    read entry with the caller's buffer, the caller's length converted to
    [size_t] (the length itself when it is not negative, 2^64 more when it
    is) and 0 for the extra argument, and never by its write entry; it has
    changed no stream context and no engine context. *)
Theorem read_calls_once (w w' : world T) (b buf : pointer) (len r : Z) :
  bio_read b buf len w = Done r w' ->
  streams w' = streams w /\ contexts w' = contexts w /\
  (calls w' = calls w \/
   exists (s : pointer) (timeout : Z),
     calls w' = calls w ++ [StreamRead s buf (to_size_t len) 0 timeout]).
Proof.
  intros H. apply read_inv in H.
  destruct H as [[_ ->] | (b0 & t & x & tls & n & e' & _ & _ & _ & _ & ->)].
  - by repeat split; try left.
  - cbn. repeat split. right. eauto.
Qed.

(** X10: a [write] that returns has called the stream at most once, by
    its vectored write with segment count 1 and the one segment made of
    the caller's buffer and the caller's length converted to [size_t] (the
    length itself when it is not negative, 2^64 more when it is), and
    never by its read entry; it has changed no stream context and no
    engine context. *)
Theorem write_calls_once (w w' : world T) (b buf : pointer) (len r : Z) :
  bio_write b buf len w = Done r w' ->
  streams w' = streams w /\ contexts w' = contexts w /\
  (calls w' = calls w \/
   exists (s : pointer) (timeout : Z),
     calls w' =
     calls w ++ [StreamWritev s [mkIovec buf (to_size_t len)] 1 timeout]).
Proof.
  intros H. apply write_inv in H.
  destruct H as [[_ ->] | (b0 & t & x & tls & n & e' & _ & _ & _ & _ & ->)].
  - by repeat split; try left.
  - cbn. repeat split. right. eauto.
Qed.

(** X11: a [read] or [write] on one handle leaves every other handle as
    it was, flags included: the retry state is kept per handle. *)
Theorem transfer_isolated (w w' : world T) (b : addr) (buf : pointer)
        (len r : Z) :
  bio_read (Some b) buf len w = Done r w' \/
  bio_write (Some b) buf len w = Done r w' ->
  forall a : addr, a <> b -> bios w' !! a = bios w !! a.
Proof.
  intros H a Ha.
  assert (Hw : w' = w \/
               exists h : BIO, bios w' = <[b := h]> (bios w)).
  { destruct H as [H | H];
      [apply read_inv in H | apply write_inv in H];
      destruct H as [[_ ->] | (b0 & t & x & tls & n & e' & [= <-] & _ & _ & _ & ->)];
      eauto. }
  destruct Hw as [-> | [h ->]]; [reflexivity |].
  apply lookup_insert_ne. congruence.
Qed.

End Sequences.

(** ** The sequences on the scripted stream *)

Lemma destroy_frame_witness :
  exists w' : world Scripted.script,
    mongoc_stream_tls_openssl_bio_destroy
      (Some 1%positive) (Scripted.world0 9 []) = Done 1 w' /\
    (forall a : addr, a <> 1%positive ->
                      bios w' !! a = bios (Scripted.world0 9 []) !! a) /\
    (forall a : addr, a <> 3%positive ->
                      contexts w' !! a = contexts (Scripted.world0 9 []) !! a) /\
    (num <$> bios w' !! 1%positive) = Some 0 /\
    streams w' = streams (Scripted.world0 9 []) /\
    io w' = io (Scripted.world0 9 []) /\
    calls w' = calls (Scripted.world0 9 []).
Proof.
  apply (destroy_frame (Scripted.world0 9 []) 1%positive 2%positive 3%positive
                       (Scripted.bound_bio 9) Scripted.tls0
                       (mkOpenssl (Some 1%positive)));
    reflexivity.
Defined.

Lemma destroy_then_inert_witness :
  exists w' : world Scripted.script,
    mongoc_stream_tls_openssl_bio_destroy
      (Some 1%positive) (Scripted.world0 9 Scripted.retry_then_hello) =
    Done 1 w' /\
    mongoc_stream_tls_openssl_bio_destroy (Some 1%positive) w' =
    Done (-1) w' /\
    mongoc_stream_tls_openssl_bio_read Scripted.read Scripted.is_again
      (Some 1%positive) (Some 9%positive) 10 w' = Done (-1) w' /\
    mongoc_stream_tls_openssl_bio_write Scripted.writev Scripted.is_again
      (Some 1%positive) (Some 9%positive) 10 w' = Done (-1) w'.
Proof.
  apply (destroy_then_inert Scripted.read Scripted.writev Scripted.is_again
                            (Scripted.world0 9 Scripted.retry_then_hello)
                            1%positive 2%positive 3%positive 9%positive
                            (Scripted.bound_bio 9) Scripted.tls0
                            (mkOpenssl (Some 1%positive)) 10);
    reflexivity.
Defined.

Lemma create_then_inert_witness :
  exists w' : world Scripted.script,
    mongoc_stream_tls_openssl_bio_create
      (Some 1%positive) (Scripted.world0 9 Scripted.retry_then_hello) =
    Done 1 w' /\
    contexts w' = contexts (Scripted.world0 9 Scripted.retry_then_hello) /\
    mongoc_stream_tls_openssl_bio_destroy (Some 1%positive) w' =
    Done (-1) w' /\
    mongoc_stream_tls_openssl_bio_read Scripted.read Scripted.is_again
      (Some 1%positive) (Some 9%positive) 10 w' = Done (-1) w' /\
    mongoc_stream_tls_openssl_bio_write Scripted.writev Scripted.is_again
      (Some 1%positive) (Some 9%positive) 10 w' = Done (-1) w'.
Proof.
  apply (create_then_inert Scripted.read Scripted.writev Scripted.is_again
                           (Scripted.world0 9 Scripted.retry_then_hello)
                           1%positive 9%positive (Scripted.bound_bio 9) 10).
  reflexivity.
Defined.

Lemma destroy_needs_context_witness :
  mongoc_stream_tls_openssl_bio_destroy
    (Some 1%positive) (Scripted.world_no_ctx 0) = Fault.
Proof.
  apply (destroy_needs_context (Scripted.world_no_ctx 0) 1%positive 2%positive
                               (Scripted.bound_bio 0)
                               (mkTls (Some 7%positive) NULL 50)).
  - reflexivity.
  - reflexivity.
  - reflexivity.
  - left. reflexivity.
Defined.

Lemma transfer_returns_int_witness : int_range 0.
Proof.
  apply (transfer_returns_int
           Scripted.read Scripted.writev Scripted.is_again
           (Scripted.world0 0 Scripted.huge_count)
           (mkWorld (<[1%positive := Scripted.bound_bio 9]>
                       (bios (Scripted.world0 0 Scripted.huge_count)))
                    (streams (Scripted.world0 0 Scripted.huge_count))
                    (contexts (Scripted.world0 0 Scripted.huge_count))
                    Scripted.env_after_huge
                    [StreamRead (Some 7%positive) (Some 4%positive) 10 0 50])
           (Some 1%positive) (Some 4%positive) 10 0).
  left. vm_compute. reflexivity.
Defined.

Lemma transfer_count_as_int_witness :
  exists w1 w2 : world Scripted.script,
    mongoc_stream_tls_openssl_bio_read Scripted.read Scripted.is_again
      (Some 1%positive) (Some 4%positive) 10
      (Scripted.world0 0 Scripted.huge_count) = Done 0 w1 /\
    (BIO_should_retry ∘ flags <$> bios w1 !! 1%positive) = Some true /\
    mongoc_stream_tls_openssl_bio_write Scripted.writev Scripted.is_again
      (Some 1%positive) (Some 4%positive) 10
      (Scripted.world0 0 Scripted.huge_count) = Done 0 w2 /\
    (BIO_should_retry ∘ flags <$> bios w2 !! 1%positive) = Some true.
Proof.
  apply (transfer_count_as_int
           Scripted.read Scripted.writev Scripted.is_again
           (Scripted.world0 0 Scripted.huge_count)
           1%positive 2%positive 4%positive (Scripted.bound_bio 0)
           Scripted.tls0 10 (2 ^ 32) (2 ^ 32)
           Scripted.env_after_huge Scripted.env_after_huge);
    reflexivity.
Defined.

Lemma stale_errno_ignored_witness :
  (set_errno Scripted.EAGAIN ;;
   mongoc_stream_tls_openssl_bio_read Scripted.read Scripted.is_again
     (Some 1%positive) (Some 9%positive) 10)
    (Scripted.world0 0 Scripted.retry_then_hello) =
  mongoc_stream_tls_openssl_bio_read Scripted.read Scripted.is_again
    (Some 1%positive) (Some 9%positive) 10
    (Scripted.world0 0 Scripted.retry_then_hello) /\
  (set_errno Scripted.EAGAIN ;;
   mongoc_stream_tls_openssl_bio_write Scripted.writev Scripted.is_again
     (Some 1%positive) (Some 9%positive) 10)
    (Scripted.world0 0 Scripted.retry_then_hello) =
  mongoc_stream_tls_openssl_bio_write Scripted.writev Scripted.is_again
    (Some 1%positive) (Some 9%positive) 10
    (Scripted.world0 0 Scripted.retry_then_hello).
Proof.
  apply (stale_errno_ignored Scripted.read Scripted.writev Scripted.is_again
                             (Scripted.world0 0 Scripted.retry_then_hello)
                             1%positive 2%positive 9%positive
                             (Scripted.bound_bio 0) 10 Scripted.EAGAIN);
    reflexivity.
Defined.

Lemma read_calls_once_witness :
  streams Scripted.world_after_retry =
  streams (Scripted.world0 2 Scripted.retry_then_hello) /\
  contexts Scripted.world_after_retry =
  contexts (Scripted.world0 2 Scripted.retry_then_hello) /\
  (calls Scripted.world_after_retry =
   calls (Scripted.world0 2 Scripted.retry_then_hello) \/
   exists (s : pointer) (timeout : Z),
     calls Scripted.world_after_retry =
     calls (Scripted.world0 2 Scripted.retry_then_hello) ++
     [StreamRead s (Some 9%positive) 10 0 timeout]).
Proof.
  apply (read_calls_once Scripted.read Scripted.is_again
                         (Scripted.world0 2 Scripted.retry_then_hello)
                         Scripted.world_after_retry
                         (Some 1%positive) (Some 9%positive) 10 (-1)).
  vm_compute. reflexivity.
Defined.

Lemma write_calls_once_witness :
  streams Scripted.world_after_short =
  streams (Scripted.world0 9 Scripted.short_write) /\
  contexts Scripted.world_after_short =
  contexts (Scripted.world0 9 Scripted.short_write) /\
  (calls Scripted.world_after_short =
   calls (Scripted.world0 9 Scripted.short_write) \/
   exists (s : pointer) (timeout : Z),
     calls Scripted.world_after_short =
     calls (Scripted.world0 9 Scripted.short_write) ++
     [StreamWritev s [mkIovec (Some 4%positive) 100] 1 timeout]).
Proof.
  apply (write_calls_once Scripted.writev Scripted.is_again
                          (Scripted.world0 9 Scripted.short_write)
                          Scripted.world_after_short
                          (Some 1%positive) (Some 4%positive) 100 40).
  vm_compute. reflexivity.
Defined.

Lemma transfer_isolated_witness :
  bios Scripted.world_after_retry !! 5%positive =
  bios (Scripted.world0 2 Scripted.retry_then_hello) !! 5%positive.
Proof.
  apply (transfer_isolated Scripted.read Scripted.writev Scripted.is_again
                           (Scripted.world0 2 Scripted.retry_then_hello)
                           Scripted.world_after_retry
                           1%positive (Some 9%positive) 10 (-1)).
  - left. vm_compute. reflexivity.
  - discriminate.
Defined.

(** ** A negative length *)

(** The length -1 reaches the stream as 2^64 - 1, in a read and in the
    segment of a write. *)
Example negative_length_read :
  calls <$> returned_store
    (mongoc_stream_tls_openssl_bio_read Scripted.read Scripted.is_again
       (Some 1%positive) (Some 9%positive) (-1)
       (Scripted.world0 0 Scripted.retry_then_hello)) =
  Some [StreamRead (Some 7%positive) (Some 9%positive) SIZE_MAX 0 50].
Proof. vm_compute. reflexivity. Qed.

Example negative_length_write :
  calls <$> returned_store
    (mongoc_stream_tls_openssl_bio_write Scripted.writev Scripted.is_again
       (Some 1%positive) (Some 4%positive) (-1)
       (Scripted.world0 0 Scripted.short_write)) =
  Some [StreamWritev (Some 7%positive) [mkIovec (Some 4%positive) SIZE_MAX]
                     1 50].
Proof. vm_compute. reflexivity. Qed.
